(** * Login gate of the authentication controller

    A shallow embedding of the login handler [loginUser] and of the helpers
    it is built from (verification gate, lockout gate, failed-attempt
    counter, success response), with the properties of the login / lockout
    state machine proved over it.

    Conventions of the embedding.
    - Timestamps ([Date] values) are integer milliseconds, as returned by
      [getTime()]; the failed-attempt counter is an integer. Both are [Z]:
      on the values a clock and a counter take, the arithmetic of the
      handler ([+ 1], a difference of two timestamps, its quotient by 60000
      rounded up) is exact in JavaScript numbers.
    - Credentials and usernames are strings of 8-bit characters, for which
      [String.length] is the [length] of the JavaScript string.
    - A column that may hold [null]/[undefined] is an [option].
    - The handler is written in a state monad over a [World]: the stored
      accounts, the calls made on the response object [res], the clock and
      a record of the calls made to the collaborators.
    - [res] is modelled as the ordered list of [res.status(c).json(b)] calls
      the handler issues; the transport delivers the first one. *)

From stdpp Require Import base option list strings gmap fin_maps pretty.
From Stdlib Require Import ZArith Lia.

#[local] Open Scope Z_scope.

(** ** Data model *)

(** The [verification] sub-record of an account. *)
Record Verification := mkVerification {
  isEmailVerified : bool;
  isPhoneVerified : bool;
  loginAttempts : option Z;
  blockExpiration : option Z
}.

(** A stored row; rows are kept under their username. *)
Record Account := mkAccount {
  acc_id : Z;
  acc_password : string;
  acc_rol : string;
  acc_verification : Verification
}.

(** The object [getUserByUsername] hands to the handler. *)
Record User := mkUser {
  username : string;
  id : Z;
  password : string;
  rol : string;
  verification : Verification
}.

Definition load (name : string) (a : Account) : User :=
  mkUser name (acc_id a) (acc_password a) (acc_rol a) (acc_verification a).

Definition set_loginAttempts (n : option Z) (a : Account) : Account :=
  let v := acc_verification a in
  mkAccount (acc_id a) (acc_password a) (acc_rol a)
    (mkVerification (isEmailVerified v) (isPhoneVerified v) n (blockExpiration v)).

Definition set_blockExpiration (t : option Z) (a : Account) : Account :=
  let v := acc_verification a in
  mkAccount (acc_id a) (acc_password a) (acc_rol a)
    (mkVerification (isEmailVerified v) (isPhoneVerified v) (loginAttempts v) t).

(** ** Responses *)

(** Entries of the message tables [errorMessages] / [successMessages], kept
    symbolic, and the one literal message of the handler. *)
Inductive Msg :=
  | userNotVerified
  | numberNotVerified
  | accountLocked
  | accountLockedv1 (timeLeft : string)
  | incorrectPassword (attempts : Z)
  | userNotExists (name : string)
  | databaseError
  | userLoggedIn
  | literal (s : string).

(** The JSON bodies the handler sends. *)
Inductive Body :=
  | json_msg (msg : Msg)
  | json_login (msg : Msg) (token : string) (userId : Z) (rol : string)
      (passwordorrandomPassword : option string)
  | json_error (msg : Msg).

Record Response := mkResponse { status : Z; body : Body }.

(** ** The world the handler runs in *)

(** Calls to the collaborators imported by the controller. *)
Inductive Call :=
  | call_getUserByUsername (name : string)
  | call_validatePassword (name : string) (password : string)
  | call_update (name : string) (attempts : Z)
  | call_resetLoginAttempts (name : string)
  | call_lockAccount (name : string)
  | call_generateAuthToken (name : string).

Record World := mkWorld {
  db : gmap string Account;
  res : list Response;
  statusCode : Z;
  clock : nat → Z;
  reads : nat;
  calls : list Call
}.

Definition M (A : Type) : Type := World → A * World.

#[global] Instance M_ret : MRet M := λ A a w, (a, w).
#[global] Instance M_bind : MBind M :=
  λ A B f m w, let '(a, w') := m w in f a w'.

Definition exec {A} (m : M A) (w : World) : World := snd (m w).
Definition eval {A} (m : M A) (w : World) : A := fst (m w).

Definition gets {A} (f : World → A) : M A := λ w, (f w, w).

(** [new Date()]: one reading of the clock. *)
Definition new_Date : M Z :=
  λ w, (clock w (reads w),
        mkWorld (db w) (res w) (statusCode w) (clock w) (S (reads w)) (calls w)).

(** [res.status(code)]. *)
Definition res_status (code : Z) : M unit :=
  λ w, (tt, mkWorld (db w) (res w) code (clock w) (reads w) (calls w)).

(** [res.json(body)]: the body goes out under the status set so far. The
    call is recorded in the order issued. Only the first call on a [res] is
    delivered; the transport refuses a later one with an exception, which
    this model does not raise: it records the call and goes on. The handler
    issues a second call on one path alone, that of an account with neither
    verification flag set. *)
Definition res_json (b : Body) : M unit :=
  λ w, (tt, mkWorld (db w) (res w ++ [mkResponse (statusCode w) b]) (statusCode w)
              (clock w) (reads w) (calls w)).

Definition record (c : Call) : M unit :=
  λ w, (tt, mkWorld (db w) (res w) (statusCode w) (clock w) (reads w) (calls w ++ [c])).

(** An [UPDATE] of the row stored under [name]; no row, no change. *)
Definition update_row (name : string) (f : Account → Account) : M unit :=
  λ w, (tt, mkWorld (alter f name (db w)) (res w) (statusCode w) (clock w) (reads w)
              (calls w)).

(** The response the client receives: the first one written on [res]. *)
Definition delivered (w : World) : option Response := head (res w).

(** The state a request starts in: a response object nothing was written
    on, over the accounts and the clock as they stand. *)
Definition request (w : World) : World :=
  mkWorld (db w) [] 200 (clock w) (reads w) [].

(** ** JavaScript primitives used by the controller *)

(** [x || d] on a number that may be missing: [null], [undefined] and [0]
    are falsy. *)
Definition js_or (x : option Z) (d : Z) : Z :=
  match x with
  | Some n => if n =? 0 then d else n
  | None => d
  end.

(** [Math.ceil(a / b)] for integers [a] and [b > 0]. *)
Definition Math_ceil_div (a b : Z) : Z := - ((- a) / b).

(** [n.toString()] of an integer. *)
Definition toString (n : Z) : string := pretty n.

(** ** Collaborators *)

(** The pure collaborators and the lock duration, which the controller
    imports: the credential comparison behind [validatePassword], the token
    minting behind [generateAuthToken], and the duration [lockAccount] adds
    to the clock. *)
Class Collaborators := {
  password_ok : User → string → bool;
  mint_token : User → string;
  LOCK_DURATION : Z
}.

(** Máximo de intentos de inicio de sesión permitidos *)
Definition MAX_LOGIN_ATTEMPTS : Z := 5.

Section Controller.
Context `{Collaborators}.

(** Modelled from the spec: [getUserByUsername] of services/user/userService
    is not part of the sources at hand; it resolves the username to the
    stored account, or to nothing when absent. *)
Definition getUserByUsername (name : string) : M (option User) :=
  record (call_getUserByUsername name);;
  gets (λ w, load name <$> db w !! name).

(** Modelled from the spec: [validatePassword] of services/auth/authService
    is not part of the sources at hand; it compares the presented credential
    with the stored hash and has no effect on the account. *)
Definition validatePassword (user : User) (pw : string) : M bool :=
  record (call_validatePassword (username user) pw);;
  mret (password_ok user pw).

(** Modelled from the spec: [resetLoginAttempts] of services/user/userService
    is not part of the sources at hand; it sets the counter to zero and
    persists it. *)
Definition resetLoginAttempts (user : User) : M unit :=
  record (call_resetLoginAttempts (username user));;
  update_row (username user) (set_loginAttempts (Some 0)).

(** Modelled from the spec: [lockAccount] of utils/authUtils is not part of
    the sources at hand; it sets [blockExpiration] to now plus the fixed
    lock duration. *)
Definition lockAccount (name : string) : M unit :=
  record (call_lockAccount name);;
  now ← new_Date;
  update_row name (set_blockExpiration (Some (now + LOCK_DURATION))).

(** Modelled from the spec: [generateAuthToken] of services/auth/authService
    is not part of the sources at hand; it mints an opaque token for the
    user. *)
Definition generateAuthToken (user : User) : M string :=
  record (call_generateAuthToken (username user));;
  mret (mint_token user).

(** [user.verification.update({ loginAttempts: n })]: the ORM persists the
    one field on the user's row. It sets the field on the loaded object as
    well; the handler reads only [user.username] afterwards. *)
Definition verification_update (user : User) (n : Z) : M unit :=
  record (call_update (username user) n);;
  update_row (username user) (set_loginAttempts (Some n)).

(** ** The controller *)

Definition handleUnverifiedUser : M unit :=
  res_status 400;; res_json (json_msg userNotVerified).

Definition handleLockedAccount (name : string) : M unit :=
  lockAccount name;;
  res_status 400;; res_json (json_msg accountLocked).

Definition sendBadRequest (msg : Msg) : M unit :=
  res_status 400;; res_json (json_msg msg).

Definition sendDatabaseError : M unit :=
  res_status 500;; res_json (json_error databaseError).

Definition handleErrorResponse : M unit :=
  res_status 500;; res_json (json_error databaseError).

Definition incrementLoginAttempts (user : User) : M Z :=
  let updatedLoginAttempts := js_or (loginAttempts (verification user)) 0 + 1 in
  verification_update user updatedLoginAttempts;;
  mret updatedLoginAttempts.

Definition handleIncorrectPassword (user : User) : M unit :=
  updatedLoginAttempts ← incrementLoginAttempts user;
  if updatedLoginAttempts >=? MAX_LOGIN_ATTEMPTS then
    handleLockedAccount (username user)
  else
    let errorMessage := incorrectPassword updatedLoginAttempts in
    sendBadRequest errorMessage.

Definition handleSuccessfulLogin (user : User) (pw : string) : M unit :=
  let msg := if Nat.eqb (String.length pw) 8
             then literal "Inicio de sesión Recuperación de contraseña"
             else userLoggedIn in
  token ← generateAuthToken user;
  let userId := id user in
  let rol := rol user in
  let passwordorrandomPassword :=
    if Nat.eqb (String.length pw) 8 then Some "randomPassword" else None in
  res_json (json_login msg token userId rol passwordorrandomPassword).

(** The functions [isEmailVerified] and [isPhoneVerified] of the controller;
    the bare names are those of the fields they test. *)
Definition isEmailVerified_check (user : User) : M bool :=
  if negb (isEmailVerified (verification user)) then
    handleUnverifiedUser;; mret false
  else mret true.

Definition isPhoneVerified_check (user : User) : M bool :=
  if negb (isPhoneVerified (verification user)) then
    res_status 400;; res_json (json_msg numberNotVerified);; mret false
  else mret true.

Definition isUserVerified (user : User) : M bool :=
  isEmailValid ← isEmailVerified_check user;
  isPhoneValid ← isPhoneVerified_check user;
  mret (isEmailValid && isPhoneValid).

Definition isAccountBlocked (user : User) : M bool :=
  let blockExpiration := blockExpiration (verification user) in
  currentDate ← new_Date;
  mret (match blockExpiration with
        | Some t => t >? currentDate
        | None => false
        end).

Definition calculateTimeLeft (blockExpiration currentDate : Z) : string :=
  let minutesLeft := Math_ceil_div (blockExpiration - currentDate) (60 * 1000) in
  toString minutesLeft.

Definition sendAccountBlockedResponse (timeLeft : string) : M unit :=
  res_status 400;; res_json (json_msg (accountLockedv1 timeLeft)).

(** In the blocked branch the expiry is present ([isAccountBlocked] is false
    without one), so the default below is never used. *)
Definition handleBlockExpiration (user : User) : M bool :=
  blocked ← isAccountBlocked user;
  if (blocked : bool) then
    let expiry := default 0 (blockExpiration (verification user)) in
    now ← new_Date;
    let timeLeft := calculateTimeLeft expiry now in
    sendAccountBlockedResponse timeLeft;;
    mret true
  else mret false.

Definition verifyUser (name pw : string) : M (option User) :=
  user ← getUserByUsername name;
  match user with
  | None =>
      sendBadRequest (userNotExists name);;
      mret None
  | Some user =>
      (* !isUserVerified(user, res) || handleBlockExpiration(user, res) *)
      stop ← (verified ← isUserVerified user;
              if negb verified then mret true else handleBlockExpiration user);
      if (stop : bool) then mret None else mret (Some user)
  end.

(** The body of the [try] block. The collaborators of this model never
    fault, so the [catch] arm of the handler ([handleErrorResponse]) is not
    taken. A request that finds no user, or is stopped at a gate, ends
    without a further write. A call on [res] that the transport refuses
    would enter the [catch] arm as well; see [res_json]: for the account
    with neither flag set the model stands for the calls up to and
    including the second one, not for what the handler does after it. *)
Definition loginUser (name pw : string) : M unit :=
  user ← verifyUser name pw;
  match user with
  | Some user =>
      valid ← validatePassword user pw;
      if negb valid then handleIncorrectPassword user
      else
        resetLoginAttempts user;;
        handleSuccessfulLogin user pw
  | None => mret tt
  end.

(** One login request served from the state [w]. *)
Definition attemptLogin (name pw : string) (w : World) : World :=
  exec (loginUser name pw) (request w).

End Controller.

(** ** Reading the stored state *)

(** The lockout condition of the gate, [blockExpiration && blockExpiration >
    currentDate], as a function of the stored record and a clock reading. *)
Definition lock_active (v : Verification) (now : Z) : bool :=
  match blockExpiration v with
  | Some t => t >? now
  | None => false
  end.

(** The failed-attempt counter stored for [name], a missing row or a missing
    value counting as zero. *)
Definition counter (d : gmap string Account) (name : string) : Z :=
  js_or (d !! name ≫= λ a, loginAttempts (acc_verification a)) 0.

(** The [blockExpiration] stored for [name]. *)
Definition expiry (d : gmap string Account) (name : string) : option Z :=
  d !! name ≫= λ a, blockExpiration (acc_verification a).

Definition is_success (r : Response) : bool :=
  match body r with
  | json_login _ _ _ _ _ => true
  | _ => false
  end.

(** The recovery marker of a success response: the extra field
    [passwordorrandomPassword] is present. *)
Definition isRecoveryLogin (r : Response) : bool :=
  match body r with
  | json_login _ _ _ _ (Some _) => true
  | _ => false
  end.

(** A run of requests for one username, one presented credential each. *)
Definition attempts `{Collaborators} (name : string) (pws : list string)
    (w : World) : World :=
  foldl (λ w pw, attemptLogin name pw w) w pws.

(** ** Sample collaborators and accounts *)

Definition demo_collaborators : Collaborators :=
  {| password_ok := λ u pw, String.eqb (password u) pw;
     mint_token := λ u, "token:" +:+ username u;
     LOCK_DURATION := 900000 |}.

Definition demo_account (email phone : bool) (n be : option Z) : Account :=
  mkAccount 7 "s3cret" "user" (mkVerification email phone n be).

(** A world holding the one account ["alice"]; the clock starts at [t0] and
    advances by [dt] milliseconds at each reading. *)
Definition demo_world (a : Account) (t0 dt : Z) : World :=
  mkWorld {[ "alice" := a ]} [] 200 (λ k, t0 + dt * Z.of_nat k) 0 [].

Definition recovery_account : Account :=
  mkAccount 8 "Xy7pQ2mk" "user" (mkVerification true true (Some 2) None).

(** One wrong credential away from the threshold. *)
Definition world_at_four : World :=
  demo_world (demo_account true true (Some 4) None) 1000 1.

(** Locked until 100000, the clock reading 1000. *)
Definition world_locked : World :=
  demo_world (demo_account true true (Some 5) (Some 100000)) 1000 1.

(** The same lock, the clock reading 100000: expired. *)
Definition world_expired : World :=
  demo_world (demo_account true true (Some 5) (Some 100000)) 100000 1.

Definition world_three_failures : World :=
  demo_world (demo_account true true (Some 3) None) 1000 1.

Definition world_recovery : World :=
  demo_world recovery_account 1000 1.

(** Neither flag set, and a lock in force besides. *)
Definition world_unverified : World :=
  demo_world (demo_account false false (Some 2) (Some 100000)) 1000 1.

Definition world_no_counter : World :=
  demo_world (demo_account true true None None) 1000 1.

(** Email verified, phone not, and a lock in force. *)
Definition world_phone_unverified : World :=
  demo_world (demo_account true false (Some 2) (Some 100000)) 1000 1.

Definition world_one_failure : World :=
  demo_world (demo_account true true (Some 1) None) 1000 1.

(** Locked until 1000, the clock reading 999 and then 1000. *)
Definition world_lock_running_out : World :=
  demo_world (demo_account true true (Some 5) (Some 1000)) 999 1.


(** * Profile handlers

    The two handlers of the profile controller, [updateUserProfile] and
    [getUserProfile], over the stored users and their profiles. Each path of
    a handler returns one response, so a handler is a function from the
    request and the stored rows to the response (and, for the update, the
    rows as it leaves them).

    Conventions of the embedding.
    - Users are stored under their integer [id]; a column of the profile
      holds a string or [null] and takes whatever string it is given (the
      model definitions are not part of the sources).
    - A field of the request body is missing, [null] or a string.
    - The database calls do not fault; the one exception the handlers meet
      is the read of a field of a [null] profile, which lands in their
      [catch]. *)

Module Profile.

(** A field of the request body: missing, [null], or a string. *)
Inductive BodyField :=
  | absent
  | jnull
  | jstring (s : string).

(** The profile record joined to a user; a column holds a string or
    [null]. *)
Record UserProfileModel := mkProfile {
  firstName : option string;
  lastName : option string;
  biography : option string;
  direccion : option string;
  profileType : option string;
  messageType : option string;
  profilePicture : option string;
  status : option string
}.

(** A stored user, kept under its [id]; the profile may be missing. *)
Record AuthRow := mkAuthRow {
  username : string;
  email : string;
  rol : string;
  userProfile : option UserProfileModel
}.

(** [req.user]: the authenticated caller. *)
Record Caller := mkCaller {
  userId : Z;
  caller_rol : string
}.

Record RequestBody := mkBody {
  body_firstName : BodyField;
  body_lastName : BodyField;
  body_biography : BodyField;
  body_direccion : BodyField;
  body_profileType : BodyField;
  body_messageType : BodyField
}.

Record Request := mkRequest {
  params_userId : string;
  user : option Caller;
  body : RequestBody
}.

(** Entries of [errorMessages] used by the two handlers. *)
Inductive Msg :=
  | userNotFound
  | accessDenied
  | serverError.

(** The JSON bodies: a message, or the twelve fields of a profile, the last
    eight being those of the profile record. *)
Inductive Json :=
  | json_msg (msg : Msg)
  | json_profile (userId : Z) (username email rol : string)
      (profile : UserProfileModel).

Record Response := mkResponse { code : Z; json : Json }.

(** What the platform decides: the integer [Number(s)] denotes, if it
    denotes one, and the [id] the database matches the parameter with. *)
Class Platform := {
  Number : string → option Z;
  match_id : string → option Z
}.

(** The outcome of a [try] block. *)
Inductive Completion (A : Type) :=
  | Normal (a : A)
  | Thrown.
Arguments Normal {A} a.
Arguments Thrown {A}.

Definition try_catch {A} (block : Completion A) (handler : A) : A :=
  match block with
  | Normal a => a
  | Thrown => handler
  end.

(** [field || old] on a body field and a stored column: a missing, [null]
    or empty field is falsy. *)
Definition or_old (field : BodyField) (old : option string) : option string :=
  match field with
  | jstring s => if String.eqb s "" then old else Some s
  | _ => old
  end.

(** [field !== undefined ? field : old]. *)
Definition defined_or_old (field : BodyField) (old : option string)
    : option string :=
  match field with
  | absent => old
  | jnull => None
  | jstring s => Some s
  end.

(** [Number(userId) === loggedInUserId]: never true of [NaN] or
    [undefined]. *)
Definition same_id (n loggedInUserId : option Z) : bool :=
  match n, loggedInUserId with
  | Some a, Some b => a =? b
  | _, _ => false
  end.

(** [role === 'admin'], the role being [undefined] without a caller. *)
Definition is_admin (role : option string) : bool :=
  match role with
  | Some r => String.eqb r "admin"
  | None => false
  end.

Section Handlers.
Context `{Platform}.

(** [Auth.findOne({ where: { id: userId }, include: [UserProfile] })]: the
    row the database matches, with its [id]. *)
Definition findOne (userId : string) (rows : gmap Z AuthRow)
    : option (Z * AuthRow) :=
  i ← match_id userId;
  row ← rows !! i;
  Some (i, row).

(** The assignments of [updateUserProfile] to the profile record. *)
Definition assign_fields (b : RequestBody) (p : UserProfileModel)
    : UserProfileModel :=
  mkProfile
    (or_old (body_firstName b) (firstName p))
    (or_old (body_lastName b) (lastName p))
    (or_old (body_biography b) (biography p))
    (or_old (body_direccion b) (direccion p))
    (defined_or_old (body_profileType b) (profileType p))
    (defined_or_old (body_messageType b) (messageType p))
    (profilePicture p)
    (status p).

(** [userProfile.save()]: the profile of the row is replaced. *)
Definition save (i : Z) (row : AuthRow) (p : UserProfileModel)
    (rows : gmap Z AuthRow) : gmap Z AuthRow :=
  <[i := mkAuthRow (username row) (email row) (rol row) (Some p)]> rows.

Definition updateUserProfile (req : Request) (rows : gmap Z AuthRow)
    : Response * gmap Z AuthRow :=
  let userId := params_userId req in
  let loggedInUserId := Profile.userId <$> user req in
  let loggedInUserRole := caller_rol <$> user req in
  try_catch
    (match findOne userId rows with
     | None => Normal (mkResponse 404 (json_msg userNotFound), rows)
     | Some (i, row) =>
         if is_admin loggedInUserRole || same_id (Number userId) loggedInUserId
         then
           match userProfile row with
           | None => Thrown (* a property of [null] is read *)
           | Some p =>
               let p' := assign_fields (body req) p in
               Normal (mkResponse 200
                         (json_profile i (username row) (email row) (rol row) p'),
                       save i row p' rows)
           end
         else Normal (mkResponse 403 (json_msg accessDenied), rows)
     end)
    (mkResponse 500 (json_msg serverError), rows).

Definition getUserProfile (req : Request) (rows : gmap Z AuthRow) : Response :=
  let userId := params_userId req in
  let loggedInUserId := Profile.userId <$> user req in
  try_catch
    (match findOne userId rows with
     | None => Normal (mkResponse 404 (json_msg userNotFound))
     | Some (i, row) =>
         if is_admin (caller_rol <$> user req) ||
            same_id (Number userId) loggedInUserId
         then
           match userProfile row with
           | None => Thrown (* [userProfile.profilePicture] of [null] *)
           | Some p =>
               Normal (mkResponse 200
                         (json_profile i (username row) (email row) (rol row) p))
           end
         else Normal (mkResponse 403 (json_msg accessDenied))
     end)
    (mkResponse 500 (json_msg serverError)).

(** The caller may act on the user a request names. *)
Definition authorized (req : Request) : bool :=
  is_admin (caller_rol <$> user req) ||
  same_id (Number (params_userId req)) (Profile.userId <$> user req).

End Handlers.

(** ** Reading columns and body fields *)

(** A column holding a non-empty string. *)
Definition filled (column : option string) : bool :=
  match column with
  | Some s => negb (String.eqb s "")
  | None => false
  end.

(** A body field the [||] of the update passes over. *)
Definition blank (field : BodyField) : bool :=
  match field with
  | jstring s => String.eqb s ""
  | _ => true
  end.

(** ** Sample platform and rows *)

(** Decimal digits only, for the samples. *)
Fixpoint digits (s : string) (acc : Z) : option Z :=
  match s with
  | EmptyString => Some acc
  | String c rest =>
      let n := Z.of_nat (Ascii.nat_of_ascii c) - 48 in
      if (0 <=? n) && (n <=? 9) then digits rest (10 * acc + n) else None
  end.

Definition demo_platform : Platform :=
  {| Number := λ s, if String.eqb s "" then Some 0 else digits s 0;
     match_id := λ s, if String.eqb s "" then None else digits s 0 |}.

Definition ana_profile : UserProfileModel :=
  mkProfile (Some "Ana") (Some "Paz") None (Some "Calle 1") (Some "public")
    None (Some "ana.png") (Some "active").

Definition demo_rows : gmap Z AuthRow :=
  {[ 12 := mkAuthRow "ana" "ana@example.org" "user" (Some ana_profile);
     13 := mkAuthRow "luis" "luis@example.org" "user" None ]}.

Definition empty_body : RequestBody :=
  mkBody absent absent absent absent absent absent.

(** Ana renames herself, sends an empty biography and clears her profile
    type. *)
Definition rename_body : RequestBody :=
  mkBody (jstring "Anna") absent (jstring "") jnull jnull absent.

Definition ana : Caller := mkCaller 12 "user".
Definition luis : Caller := mkCaller 13 "user".
Definition root : Caller := mkCaller 1 "admin".

Definition luis_renames_ana : Request := mkRequest "12" (Some luis) rename_body.
Definition anonymous_renames_ana : Request := mkRequest "12" None rename_body.
Definition ana_renames_ana : Request := mkRequest "12" (Some ana) rename_body.
Definition ana_reads_ana : Request := mkRequest "12" (Some ana) empty_body.
Definition root_reads_nobody : Request := mkRequest "99" (Some root) empty_body.
Definition root_reads_luis : Request := mkRequest "13" (Some root) empty_body.

End Profile.

(** * Properties *)

Section Properties.
Context `{Collaborators}.

Ltac unfold_controller :=
  unfold attemptLogin, exec, eval, loginUser, verifyUser, isUserVerified,
    isEmailVerified_check, isPhoneVerified_check, handleBlockExpiration,
    isAccountBlocked, sendAccountBlockedResponse, handleIncorrectPassword,
    incrementLoginAttempts, handleSuccessfulLogin, handleLockedAccount,
    handleUnverifiedUser, sendBadRequest, verification_update, lockAccount,
    resetLoginAttempts, validatePassword, generateAuthToken, getUserByUsername,
    request, new_Date, res_status, res_json, record, update_row, gets,
    mbind, M_bind, mret, M_ret in *.

(** *** Arithmetic of the primitives *)

Lemma js_or_Some (n : Z) : js_or (Some n) 0 = n.
Proof. unfold js_or. destruct (Z.eqb_spec n 0); congruence. Qed.

Lemma js_or_None (d : Z) : js_or None d = d.
Proof. reflexivity. Qed.

(** [Math_ceil_div a b] is the least integer [m] with [a <= b * m]. *)
Lemma Math_ceil_div_spec (a b : Z) :
  0 < b → b * (Math_ceil_div a b - 1) < a ≤ b * Math_ceil_div a b.
Proof.
  intros Hb. unfold Math_ceil_div.
  pose proof (Z.div_mod (- a) b ltac:(lia)) as Hdm.
  pose proof (Z.mod_pos_bound (- a) b Hb) as Hm.
  nia.
Qed.

Lemma Math_ceil_div_pos (a b : Z) : 0 < b → 0 < a → 1 ≤ Math_ceil_div a b.
Proof.
  intros Hb Ha. pose proof (Math_ceil_div_spec a b Hb) as [_ Hle]. nia.
Qed.

Lemma toString_inj (m n : Z) : toString m = toString n → m = n.
Proof. unfold toString. apply (inj pretty). Qed.

(** *** Updates of one row *)

Lemma alter_present (f : Account → Account) (d : gmap string Account) name a :
  d !! name = Some a → alter f name d = <[name := f a]> d.
Proof.
  intros Hd. apply map_eq. intros k.
  destruct (decide (name = k)) as [<- | Hne].
  - by rewrite lookup_alter_eq, lookup_insert_eq, Hd.
  - by rewrite lookup_alter_ne, lookup_insert_ne.
Qed.

Lemma alter_absent (f : Account → Account) (d : gmap string Account) name :
  d !! name = None → alter f name d = d.
Proof.
  intros Hd. apply map_eq. intros k.
  destruct (decide (name = k)) as [<- | Hne].
  - by rewrite lookup_alter_eq, Hd.
  - by rewrite lookup_alter_ne.
Qed.

Lemma counter_insert (d : gmap string Account) name a :
  counter (<[name := a]> d) name = js_or (loginAttempts (acc_verification a)) 0.
Proof. unfold counter. by rewrite lookup_insert_eq. Qed.


Lemma counter_present (d : gmap string Account) name a :
  d !! name = Some a → counter d name = js_or (loginAttempts (acc_verification a)) 0.
Proof. intros Hd. unfold counter. by rewrite Hd. Qed.

(** *** The gates, one path at a time *)

Lemma verifyUser_absent name pw w :
  db w !! name = None →
  verifyUser name pw w =
    (None, mkWorld (db w) (res w ++ [mkResponse 400 (json_msg (userNotExists name))])
             400 (clock w) (reads w) (calls w ++ [call_getUserByUsername name])).
Proof. intros Hd. unfold_controller. simpl. by rewrite Hd. Qed.

Lemma verifyUser_email name pw w a :
  db w !! name = Some a →
  isEmailVerified (acc_verification a) = false →
  verifyUser name pw w =
    (None, mkWorld (db w)
             (res w ++ mkResponse 400 (json_msg userNotVerified) ::
                (if isPhoneVerified (acc_verification a) then []
                 else [mkResponse 400 (json_msg numberNotVerified)]))
             400 (clock w) (reads w) (calls w ++ [call_getUserByUsername name])).
Proof.
  intros Hd He. unfold_controller. simpl. rewrite Hd. simpl. rewrite He. simpl.
  destruct (isPhoneVerified (acc_verification a)); simpl; [done |].
  by rewrite <- app_assoc.
Qed.

Lemma verifyUser_phone name pw w a :
  db w !! name = Some a →
  isEmailVerified (acc_verification a) = true →
  isPhoneVerified (acc_verification a) = false →
  verifyUser name pw w =
    (None, mkWorld (db w) (res w ++ [mkResponse 400 (json_msg numberNotVerified)])
             400 (clock w) (reads w) (calls w ++ [call_getUserByUsername name])).
Proof.
  intros Hd He Hp. unfold_controller. simpl. rewrite Hd. simpl.
  by rewrite He, Hp.
Qed.

Lemma verifyUser_blocked name pw w a t :
  db w !! name = Some a →
  isEmailVerified (acc_verification a) = true →
  isPhoneVerified (acc_verification a) = true →
  blockExpiration (acc_verification a) = Some t →
  clock w (reads w) < t →
  verifyUser name pw w =
    (None, mkWorld (db w)
             (res w ++ [mkResponse 400 (json_msg (accountLockedv1
                          (calculateTimeLeft t (clock w (S (reads w))))))])
             400 (clock w) (S (S (reads w)))
             (calls w ++ [call_getUserByUsername name])).
Proof.
  intros Hd He Hp Hb Hlt. unfold_controller. simpl. rewrite Hd. simpl.
  rewrite He, Hp, Hb. simpl.
  destruct (Z.gtb_spec t (clock w (reads w))) as [_ | Hge]; [done | lia].
Qed.

Lemma verifyUser_pass name pw w a :
  db w !! name = Some a →
  isEmailVerified (acc_verification a) = true →
  isPhoneVerified (acc_verification a) = true →
  lock_active (acc_verification a) (clock w (reads w)) = false →
  verifyUser name pw w =
    (Some (load name a),
     mkWorld (db w) (res w) (statusCode w) (clock w) (S (reads w))
       (calls w ++ [call_getUserByUsername name])).
Proof.
  intros Hd He Hp Hl. unfold_controller. simpl. rewrite Hd. simpl.
  rewrite He, Hp. simpl. unfold lock_active in Hl. by rewrite Hl.
Qed.

(** *** One request, one path at a time

    The seven paths through [loginUser], each with the full state the
    request ends in. *)

Lemma attemptLogin_absent name pw w :
  db w !! name = None →
  attemptLogin name pw w =
    mkWorld (db w) [mkResponse 400 (json_msg (userNotExists name))] 400
      (clock w) (reads w) [call_getUserByUsername name].
Proof.
  intros Hd. unfold attemptLogin, exec, loginUser, mbind, M_bind.
  rewrite verifyUser_absent by done. reflexivity.
Qed.

Lemma attemptLogin_email name pw w a :
  db w !! name = Some a →
  isEmailVerified (acc_verification a) = false →
  attemptLogin name pw w =
    mkWorld (db w)
      (mkResponse 400 (json_msg userNotVerified) ::
         (if isPhoneVerified (acc_verification a) then []
          else [mkResponse 400 (json_msg numberNotVerified)]))
      400 (clock w) (reads w) [call_getUserByUsername name].
Proof.
  intros Hd He. unfold attemptLogin, exec, loginUser, mbind, M_bind.
  rewrite (verifyUser_email _ _ _ a) by done. reflexivity.
Qed.

Lemma attemptLogin_phone name pw w a :
  db w !! name = Some a →
  isEmailVerified (acc_verification a) = true →
  isPhoneVerified (acc_verification a) = false →
  attemptLogin name pw w =
    mkWorld (db w) [mkResponse 400 (json_msg numberNotVerified)] 400
      (clock w) (reads w) [call_getUserByUsername name].
Proof.
  intros Hd He Hp. unfold attemptLogin, exec, loginUser, mbind, M_bind.
  rewrite (verifyUser_phone _ _ _ a) by done. reflexivity.
Qed.

Lemma attemptLogin_blocked name pw w a t :
  db w !! name = Some a →
  isEmailVerified (acc_verification a) = true →
  isPhoneVerified (acc_verification a) = true →
  blockExpiration (acc_verification a) = Some t →
  clock w (reads w) < t →
  attemptLogin name pw w =
    mkWorld (db w)
      [mkResponse 400 (json_msg (accountLockedv1
         (calculateTimeLeft t (clock w (S (reads w))))))]
      400 (clock w) (S (S (reads w))) [call_getUserByUsername name].
Proof.
  intros Hd He Hp Hb Hlt. unfold attemptLogin, exec, loginUser, mbind, M_bind.
  rewrite (verifyUser_blocked _ _ _ a t) by done. reflexivity.
Qed.

Lemma attemptLogin_wrong_below name pw w a :
  db w !! name = Some a →
  isEmailVerified (acc_verification a) = true →
  isPhoneVerified (acc_verification a) = true →
  lock_active (acc_verification a) (clock w (reads w)) = false →
  password_ok (load name a) pw = false →
  let n := js_or (loginAttempts (acc_verification a)) 0 + 1 in
  n < MAX_LOGIN_ATTEMPTS →
  attemptLogin name pw w =
    mkWorld (<[name := set_loginAttempts (Some n) a]> (db w))
      [mkResponse 400 (json_msg (incorrectPassword n))] 400
      (clock w) (S (reads w))
      [call_getUserByUsername name; call_validatePassword name pw;
       call_update name n].
Proof.
  intros Hd He Hp Hl Hpw n Hn.
  unfold attemptLogin, exec, loginUser, mbind, M_bind.
  rewrite (verifyUser_pass _ _ _ a) by done.
  unfold_controller. simpl. rewrite Hpw. simpl. fold n.
  destruct (Z.geb_spec n MAX_LOGIN_ATTEMPTS) as [Hge | _]; [lia |].
  simpl. by rewrite (alter_present _ _ _ a).
Qed.

Lemma attemptLogin_wrong_lock name pw w a :
  db w !! name = Some a →
  isEmailVerified (acc_verification a) = true →
  isPhoneVerified (acc_verification a) = true →
  lock_active (acc_verification a) (clock w (reads w)) = false →
  password_ok (load name a) pw = false →
  let n := js_or (loginAttempts (acc_verification a)) 0 + 1 in
  MAX_LOGIN_ATTEMPTS ≤ n →
  attemptLogin name pw w =
    mkWorld
      (<[name := set_blockExpiration
                   (Some (clock w (S (reads w)) + LOCK_DURATION))
                   (set_loginAttempts (Some n) a)]> (db w))
      [mkResponse 400 (json_msg accountLocked)] 400
      (clock w) (S (S (reads w)))
      [call_getUserByUsername name; call_validatePassword name pw;
       call_update name n; call_lockAccount name].
Proof.
  intros Hd He Hp Hl Hpw n Hn.
  unfold attemptLogin, exec, loginUser, mbind, M_bind.
  rewrite (verifyUser_pass _ _ _ a) by done.
  unfold_controller. simpl. rewrite Hpw. simpl. fold n.
  destruct (Z.geb_spec n MAX_LOGIN_ATTEMPTS) as [_ | Hlt]; [| lia].
  simpl. rewrite (alter_present (set_loginAttempts (Some n)) _ _ a) by done.
  rewrite (alter_present _ _ _ (set_loginAttempts (Some n) a))
    by apply lookup_insert_eq.
  by rewrite insert_insert_eq.
Qed.

Lemma attemptLogin_success name pw w a :
  db w !! name = Some a →
  isEmailVerified (acc_verification a) = true →
  isPhoneVerified (acc_verification a) = true →
  lock_active (acc_verification a) (clock w (reads w)) = false →
  password_ok (load name a) pw = true →
  attemptLogin name pw w =
    mkWorld (<[name := set_loginAttempts (Some 0) a]> (db w))
      [mkResponse 200
         (json_login
            (if Nat.eqb (String.length pw) 8
             then literal "Inicio de sesión Recuperación de contraseña"
             else userLoggedIn)
            (mint_token (load name a)) (acc_id a) (acc_rol a)
            (if Nat.eqb (String.length pw) 8 then Some "randomPassword" else None))]
      200 (clock w) (S (reads w))
      [call_getUserByUsername name; call_validatePassword name pw;
       call_resetLoginAttempts name; call_generateAuthToken name].
Proof.
  intros Hd He Hp Hl Hpw.
  unfold attemptLogin, exec, loginUser, mbind, M_bind.
  rewrite (verifyUser_pass _ _ _ a) by done.
  unfold_controller. simpl. rewrite Hpw. simpl.
  by rewrite (alter_present _ _ _ a).
Qed.

Lemma lock_active_true v now :
  lock_active v now = true → ∃ t, blockExpiration v = Some t ∧ now < t.
Proof.
  unfold lock_active. destruct (blockExpiration v) as [t |]; [| done].
  intros Hgt. exists t. split; [done |]. by apply Z.gtb_lt in Hgt.
Qed.

Lemma lock_active_expired v now t :
  blockExpiration v = Some t → t ≤ now → lock_active v now = false.
Proof.
  intros Hb Hle. unfold lock_active. rewrite Hb.
  destruct (Z.gtb_spec t now); [lia | done].
Qed.

(** Splits a request into the seven paths, leaving in each the equation
    [Hrun] for the state it ends in. *)
Ltac login_paths name pw w :=
  let a := fresh "a" in
  let t := fresh "t" in
  let Hd := fresh "Hd" in
  let He := fresh "He" in
  let Hp := fresh "Hp" in
  let Hl := fresh "Hl" in
  let Hb := fresh "Hb" in
  let Hlt := fresh "Hlt" in
  let Hpw := fresh "Hpw" in
  let Hn := fresh "Hn" in
  destruct (db w !! name) as [a |] eqn:Hd;
  [ destruct (isEmailVerified (acc_verification a)) eqn:He;
    [ destruct (isPhoneVerified (acc_verification a)) eqn:Hp;
      [ destruct (lock_active (acc_verification a) (clock w (reads w))) eqn:Hl;
        [ destruct (lock_active_true _ _ Hl) as (t & Hb & Hlt);
          pose proof (attemptLogin_blocked name pw w a t Hd He Hp Hb Hlt) as Hrun
        | destruct (password_ok (load name a) pw) eqn:Hpw;
          [ pose proof (attemptLogin_success name pw w a Hd He Hp Hl Hpw) as Hrun
          | destruct (Z.lt_ge_cases
                        (js_or (loginAttempts (acc_verification a)) 0 + 1)
                        MAX_LOGIN_ATTEMPTS) as [Hn | Hn];
            [ pose proof (attemptLogin_wrong_below name pw w a Hd He Hp Hl Hpw Hn)
                as Hrun
            | pose proof (attemptLogin_wrong_lock name pw w a Hd He Hp Hl Hpw Hn)
                as Hrun ] ] ]
      | pose proof (attemptLogin_phone name pw w a Hd He Hp) as Hrun ]
    | pose proof (attemptLogin_email name pw w a Hd He) as Hrun ]
  | pose proof (attemptLogin_absent name pw w Hd) as Hrun ].

(** Every request issues a call on [res]; it issues one, except for an
    account with neither flag set, where both checks of the verification
    gate issue theirs. *)
Lemma responses_per_request name pw w :
  length (res (attemptLogin name pw w)) =
    match db w !! name with
    | Some a =>
        if negb (isEmailVerified (acc_verification a)) &&
           negb (isPhoneVerified (acc_verification a))
        then 2%nat else 1%nat
    | None => 1%nat
    end.
Proof.
  login_paths name pw w; rewrite Hrun; simpl; try done.
  by destruct (isPhoneVerified (acc_verification a)).
Qed.


(** *** Wrong credential: the counter and the threshold *)

(** C1. A verified, unlocked account is presented a wrong credential: the
    stored [loginAttempts] goes from [n] to [n + 1]. When [n + 1] reaches
    the threshold 5 (as from 4) the account is locked afresh, its
    [blockExpiration] set by [lockAccount], and the answer is the
    account-locked rejection. When [n + 1 < 5] (as from 0, 1, 2) the answer
    is the incorrect-credential rejection carrying [n + 1], and the stored
    [blockExpiration] is as before. *)
Theorem C1_incorrect_credential name pw w a n :
  db w !! name = Some a →
  isEmailVerified (acc_verification a) = true →
  isPhoneVerified (acc_verification a) = true →
  lock_active (acc_verification a) (clock w (reads w)) = false →
  loginAttempts (acc_verification a) = Some n →
  password_ok (load name a) pw = false →
  let w' := attemptLogin name pw w in
  (db w' !! name ≫= λ a', loginAttempts (acc_verification a')) = Some (n + 1) ∧
  (MAX_LOGIN_ATTEMPTS ≤ n + 1 →
     res w' = [mkResponse 400 (json_msg accountLocked)] ∧
     expiry (db w') name = Some (clock w (S (reads w)) + LOCK_DURATION) ∧
     db w' = <[name := set_blockExpiration
                          (Some (clock w (S (reads w)) + LOCK_DURATION))
                          (set_loginAttempts (Some (n + 1)) a)]> (db w)) ∧
  (n + 1 < MAX_LOGIN_ATTEMPTS →
     res w' = [mkResponse 400 (json_msg (incorrectPassword (n + 1)))] ∧
     expiry (db w') name = blockExpiration (acc_verification a) ∧
     db w' = <[name := set_loginAttempts (Some (n + 1)) a]> (db w)).
Proof.
  intros Hd He Hp Hl Hn Hpw w'.
  pose proof (attemptLogin_wrong_below name pw w a Hd He Hp Hl Hpw) as Hbelow.
  pose proof (attemptLogin_wrong_lock name pw w a Hd He Hp Hl Hpw) as Hlock.
  cbv zeta in Hbelow, Hlock. rewrite Hn, js_or_Some in Hbelow, Hlock.
  destruct (Z.lt_ge_cases (n + 1) MAX_LOGIN_ATTEMPTS) as [Hlt | Hge].
  - specialize (Hbelow Hlt). subst w'. rewrite Hbelow. unfold expiry. simpl.
    rewrite lookup_insert_eq. simpl.
    split; [done |]. split; [intros; lia |]. done.
  - specialize (Hlock Hge). subst w'. rewrite Hlock. unfold expiry. simpl.
    rewrite lookup_insert_eq. simpl.
    split; [done |]. split; [done |]. intros; lia.
Qed.

(** C10. A verified, unlocked account whose stored counter is missing is
    presented a wrong credential: the missing value counts as 0, the answer
    is the incorrect-credential rejection carrying 1, and the counter is
    stored as 1. *)
Theorem C10_missing_counter name pw w a :
  db w !! name = Some a →
  isEmailVerified (acc_verification a) = true →
  isPhoneVerified (acc_verification a) = true →
  lock_active (acc_verification a) (clock w (reads w)) = false →
  loginAttempts (acc_verification a) = None →
  password_ok (load name a) pw = false →
  let w' := attemptLogin name pw w in
  res w' = [mkResponse 400 (json_msg (incorrectPassword 1))] ∧
  (db w' !! name ≫= λ a', loginAttempts (acc_verification a')) = Some 1 ∧
  db w' = <[name := set_loginAttempts (Some 1) a]> (db w).
Proof.
  intros Hd He Hp Hl Hn Hpw w'.
  pose proof (attemptLogin_wrong_below name pw w a Hd He Hp Hl Hpw) as Hbelow.
  cbv zeta in Hbelow. rewrite Hn, js_or_None in Hbelow.
  specialize (Hbelow ltac:(unfold MAX_LOGIN_ATTEMPTS; lia)).
  subst w'. rewrite Hbelow. simpl. by rewrite lookup_insert_eq.
Qed.

(** *** The lockout gate *)

(** The lockout gate while the expiry is ahead of both clock readings of the
    request: the answer is the account-locked rejection carrying
    [ceil((blockExpiration - now) / 60000)] minutes, which is at least 1 and
    so never printed as ["0"]; the presented credential plays no part: it is
    never validated, and nothing stored changes. *)
Theorem C2_locked_minutes name pw w a t :
  db w !! name = Some a →
  isEmailVerified (acc_verification a) = true →
  isPhoneVerified (acc_verification a) = true →
  blockExpiration (acc_verification a) = Some t →
  clock w (reads w) < t →
  clock w (S (reads w)) < t →
  let now := clock w (S (reads w)) in
  let minutes := Math_ceil_div (t - now) 60000 in
  let w' := attemptLogin name pw w in
  res w' = [mkResponse 400 (json_msg (accountLockedv1 (toString minutes)))] ∧
  60000 * (minutes - 1) < t - now ≤ 60000 * minutes ∧
  1 ≤ minutes ∧
  toString minutes ≠ "0" ∧
  db w' = db w ∧
  calls w' = [call_getUserByUsername name].
Proof.
  intros Hd He Hp Hb Hgate Hnow now minutes w'.
  subst w'. rewrite (attemptLogin_blocked name pw w a t) by done. simpl.
  assert (1 ≤ minutes) as Hmin
    by (apply Math_ceil_div_pos; [lia | subst now; lia]).
  split; [done |].
  split; [apply Math_ceil_div_spec; lia |].
  split; [done |].
  split; [| done].
  intros Hzero. change "0" with (toString 0) in Hzero.
  apply toString_inj in Hzero. lia.
Qed.

(** *** Correct credential *)

(** C3. A verified, unlocked account is presented a correct credential: the
    stored counter is reset to 0 and the answer is the success response,
    which carries the recovery message and the extra one-time-password field
    exactly when the credential is 8 characters long. *)
Theorem C3_success_recovery_flag name pw w a :
  db w !! name = Some a →
  isEmailVerified (acc_verification a) = true →
  isPhoneVerified (acc_verification a) = true →
  lock_active (acc_verification a) (clock w (reads w)) = false →
  password_ok (load name a) pw = true →
  let w' := attemptLogin name pw w in
  (db w' !! name ≫= λ a', loginAttempts (acc_verification a')) = Some 0 ∧
  db w' = <[name := set_loginAttempts (Some 0) a]> (db w) ∧
  ∃ msg extra,
    res w' = [mkResponse 200
                (json_login msg (mint_token (load name a)) (acc_id a) (acc_rol a)
                   extra)] ∧
    (String.length pw = 8%nat →
       msg = literal "Inicio de sesión Recuperación de contraseña" ∧
       extra = Some "randomPassword") ∧
    (String.length pw ≠ 8%nat → msg = userLoggedIn ∧ extra = None) ∧
    (∀ r, res w' = [r] →
       is_success r = true ∧
       (isRecoveryLogin r = true ↔ String.length pw = 8%nat)).
Proof.
  intros Hd He Hp Hl Hpw w'.
  subst w'. rewrite (attemptLogin_success name pw w a) by done. simpl.
  rewrite lookup_insert_eq. simpl.
  split; [done |]. split; [done |].
  eexists _, _. split; [reflexivity |].
  destruct (Nat.eqb_spec (String.length pw) 8) as [Heq | Hne].
  - split; [done |]. split; [done |].
    intros r [= <-]. by cbn.
  - split; [done |]. split; [done |].
    intros r [= <-]. cbn. split; [done |]. split; [done | intros; lia].
Qed.

(** *** The verification gate *)

(** C4. An account whose email is not verified is answered with the
    email-not-verified rejection, whatever its phone flag, its lock state
    and the presented credential: nothing stored changes, the clock is not
    read (the lockout gate is not entered) and the only collaborator called
    is the lookup (the credential is never validated). *)
Theorem C4_email_not_verified name pw w a :
  db w !! name = Some a →
  isEmailVerified (acc_verification a) = false →
  let w' := attemptLogin name pw w in
  delivered w' = Some (mkResponse 400 (json_msg userNotVerified)) ∧
  db w' = db w ∧
  reads w' = reads w ∧
  calls w' = [call_getUserByUsername name].
Proof.
  intros Hd He w'. subst w'.
  by rewrite (attemptLogin_email name pw w a).
Qed.

(** *** Natural expiry of a lock *)

(** C6. A verified account is locked until [T + D]. A request whose clock
    reading at the gate lies in [[T, T + D)] is answered with the
    account-locked rejection and changes nothing. A request whose reading
    lies at or after [T + D] passes the gate, which returns the user and
    leaves the stored state, expired [blockExpiration] included, as it was;
    the credential is then validated. *)
Theorem C6_lock_window name pw w a T D :
  db w !! name = Some a →
  isEmailVerified (acc_verification a) = true →
  isPhoneVerified (acc_verification a) = true →
  blockExpiration (acc_verification a) = Some (T + D) →
  let w' := attemptLogin name pw w in
  (T ≤ clock w (reads w) < T + D →
     res w' = [mkResponse 400 (json_msg (accountLockedv1
                 (calculateTimeLeft (T + D) (clock w (S (reads w))))))] ∧
     db w' = db w ∧
     calls w' = [call_getUserByUsername name]) ∧
  (T + D ≤ clock w (reads w) →
     eval (verifyUser name pw) (request w) = Some (load name a) ∧
     res (exec (verifyUser name pw) (request w)) = [] ∧
     db (exec (verifyUser name pw) (request w)) = db w ∧
     expiry (db (exec (verifyUser name pw) (request w))) name = Some (T + D) ∧
     calls w' !! 1%nat = Some (call_validatePassword name pw)).
Proof.
  intros Hd He Hp Hb w'. split.
  - intros [_ Hlt]. subst w'.
    by rewrite (attemptLogin_blocked name pw w a (T + D)).
  - intros Hge.
    pose proof (lock_active_expired _ _ _ Hb Hge) as Hl.
    unfold eval, exec.
    rewrite (verifyUser_pass name pw (request w) a) by done. simpl.
    do 3 (split; [done |]).
    split; [unfold expiry; by rewrite Hd; simpl |].
    subst w'.
    destruct (password_ok (load name a) pw) eqn:Hpw.
    + by rewrite (attemptLogin_success name pw w a).
    + destruct (Z.lt_ge_cases
                  (js_or (loginAttempts (acc_verification a)) 0 + 1)
                  MAX_LOGIN_ATTEMPTS) as [Hn | Hn].
      * by rewrite (attemptLogin_wrong_below name pw w a).
      * by rewrite (attemptLogin_wrong_lock name pw w a).
Qed.

(** *** The counter over all requests *)


(** *** Unknown usernames *)

Lemma attempts_absent name pws w :
  db w !! name = None →
  db (attempts name pws w) = db w ∧ reads (attempts name pws w) = reads w.
Proof.
  revert w. induction pws as [| pw pws IH]; intros w Hd; [done |].
  unfold attempts in *. simpl.
  pose proof (attemptLogin_absent name pw w Hd) as Hrun.
  destruct (IH (attemptLogin name pw w)) as [Hdb Hreads].
  { by rewrite Hrun. }
  rewrite Hdb, Hreads, Hrun. done.
Qed.

(** C8. A username that resolves to no account is answered with the
    user-not-found rejection naming that username, and nothing stored
    changes, however many times the request is repeated and whatever
    credentials are presented. *)
Theorem C8_not_found_idempotent name w :
  db w !! name = None →
  (∀ pw,
     let w' := attemptLogin name pw w in
     res w' = [mkResponse 400 (json_msg (userNotExists name))] ∧
     db w' = db w ∧
     calls w' = [call_getUserByUsername name]) ∧
  (∀ pws, db (attempts name pws w) = db w) ∧
  (∀ pws pw,
     res (attemptLogin name pw (attempts name pws w)) =
       [mkResponse 400 (json_msg (userNotExists name))]).
Proof.
  intros Hd. split; [| split].
  - intros pw w'. subst w'. by rewrite attemptLogin_absent.
  - intros pws. by apply attempts_absent.
  - intros pws pw. rewrite attemptLogin_absent; [done |].
    destruct (attempts_absent name pws w Hd) as [-> _]. done.
Qed.

(** *** Re-locking after expiry *)


(** ** Further properties of the login handler *)

(** Membership in an explicit list: refuted entry by entry, or found. *)
Ltac not_in_list H :=
  repeat (apply elem_of_cons in H as [H | H]; [discriminate H |]);
  by apply elem_of_nil in H.

Ltac in_list :=
  repeat first [ apply list_elem_of_here | apply list_elem_of_further ].

Lemma set_loginAttempts_same a :
  set_loginAttempts (loginAttempts (acc_verification a)) a = a.
Proof. by destruct a as [? ? ? []]. Qed.

Lemma set_loginAttempts_twice m n a :
  set_loginAttempts n (set_loginAttempts m a) = set_loginAttempts n a.
Proof. reflexivity. Qed.

Lemma lock_active_none v now :
  blockExpiration v = None → lock_active v now = false.
Proof. intros Hb. unfold lock_active. by rewrite Hb. Qed.

(** *** The gate as its caller sees it *)

(** X1. [verifyUser] never changes a stored account. It returns the user exactly
    when it has written nothing on [res], and then the account exists, has
    both flags set and no lock in force at the clock reading of the gate;
    when it returns null it has written at least one response. *)
Theorem verifyUser_null_iff_answered name pw w :
  let w' := exec (verifyUser name pw) w in
  db w' = db w ∧
  match eval (verifyUser name pw) w with
  | Some user =>
      res w' = res w ∧
      ∃ a, db w !! name = Some a ∧ user = load name a ∧
           isEmailVerified (acc_verification a) = true ∧
           isPhoneVerified (acc_verification a) = true ∧
           lock_active (acc_verification a) (clock w (reads w)) = false
  | None => (length (res w) < length (res w'))%nat
  end.
Proof.
  intros w'. subst w'. unfold exec, eval.
  destruct (db w !! name) as [a |] eqn:Hd.
  - destruct (isEmailVerified (acc_verification a)) eqn:He.
    + destruct (isPhoneVerified (acc_verification a)) eqn:Hp.
      * destruct (lock_active (acc_verification a) (clock w (reads w))) eqn:Hl.
        -- destruct (lock_active_true _ _ Hl) as (t & Hb & Hlt).
           rewrite (verifyUser_blocked name pw w a t) by done. simpl.
           split; [done |]. rewrite length_app. simpl. lia.
        -- rewrite (verifyUser_pass name pw w a) by done. simpl.
           split; [done |]. split; [done |]. by exists a.
      * rewrite (verifyUser_phone name pw w a) by done. simpl.
        split; [done |]. rewrite length_app. simpl. lia.
    + rewrite (verifyUser_email name pw w a) by done. simpl.
      split; [done |]. rewrite length_app. simpl. lia.
  - rewrite verifyUser_absent by done. simpl.
    split; [done |]. rewrite length_app. simpl. lia.
Qed.

(** X2. An account whose email is verified and whose phone is not is answered
    with the phone rejection alone, whatever its lock state and the
    credential: nothing stored changes, the clock is not read and the
    credential is not validated. *)
Theorem phone_not_verified_gate name pw w a :
  db w !! name = Some a →
  isEmailVerified (acc_verification a) = true →
  isPhoneVerified (acc_verification a) = false →
  let w' := attemptLogin name pw w in
  res w' = [mkResponse 400 (json_msg numberNotVerified)] ∧
  db w' = db w ∧
  reads w' = reads w ∧
  calls w' = [call_getUserByUsername name].
Proof.
  intros Hd He Hp w'. subst w'.
  by rewrite (attemptLogin_phone name pw w a).
Qed.

(** *** What a request never does *)

(** X3. The success response is written, and a token minted, exactly for an
    existing account with both flags set, no lock in force at the gate and a
    credential the validator accepts. *)
Theorem success_iff_all_gates_pass name pw w :
  let w' := attemptLogin name pw w in
  let granted :=
    ∃ a, db w !! name = Some a ∧
         isEmailVerified (acc_verification a) = true ∧
         isPhoneVerified (acc_verification a) = true ∧
         lock_active (acc_verification a) (clock w (reads w)) = false ∧
         password_ok (load name a) pw = true in
  ((∃ r, r ∈ res w' ∧ is_success r = true) ↔ granted) ∧
  (call_generateAuthToken name ∈ calls w' ↔ granted).
Proof.
  intros w' granted. subst w' granted.
  login_paths name pw w; rewrite Hrun; simpl.
  - (* locked *)
    split; split.
    + intros (r & Hr & Hs). apply list_elem_of_singleton in Hr. by subst r.
    + intros (a' & [= <-] & _ & _ & Hl' & _). congruence.
    + intros Hin. not_in_list Hin.
    + intros (a' & [= <-] & _ & _ & Hl' & _). congruence.
  - (* success *)
    split; split.
    + intros _. by exists a.
    + intros _. eexists. split; [apply list_elem_of_singleton; reflexivity | done].
    + intros _. by exists a.
    + intros _. in_list.
  - (* wrong credential, below the threshold *)
    split; split.
    + intros (r & Hr & Hs). apply list_elem_of_singleton in Hr. by subst r.
    + intros (a' & [= <-] & _ & _ & _ & Hpw'). congruence.
    + intros Hin. not_in_list Hin.
    + intros (a' & [= <-] & _ & _ & _ & Hpw'). congruence.
  - (* wrong credential, threshold reached *)
    split; split.
    + intros (r & Hr & Hs). apply list_elem_of_singleton in Hr. by subst r.
    + intros (a' & [= <-] & _ & _ & _ & Hpw'). congruence.
    + intros Hin. not_in_list Hin.
    + intros (a' & [= <-] & _ & _ & _ & Hpw'). congruence.
  - (* phone *)
    split; split.
    + intros (r & Hr & Hs). apply list_elem_of_singleton in Hr. by subst r.
    + intros (a' & [= <-] & _ & Hp' & _). congruence.
    + intros Hin. not_in_list Hin.
    + intros (a' & [= <-] & _ & Hp' & _). congruence.
  - (* email *)
    split; split.
    + intros (r & Hr & Hs).
      destruct (isPhoneVerified (acc_verification a));
        repeat (apply elem_of_cons in Hr as [-> | Hr]; [done |]);
        by apply elem_of_nil in Hr.
    + intros (a' & [= <-] & He' & _). congruence.
    + intros Hin. not_in_list Hin.
    + intros (a' & [= <-] & He' & _). congruence.
  - (* absent *)
    split; split.
    + intros (r & Hr & Hs). apply list_elem_of_singleton in Hr. by subst r.
    + intros (a' & [=] & _).
    + intros Hin. not_in_list Hin.
    + intros (a' & [=] & _).
Qed.

(** X4. The presented credential is handed to the validator exactly when the
    account exists, has both flags set and is not locked at the gate: an
    unverified or locked account gives no answer about a credential. *)
Theorem credential_validated_iff_gates_pass name pw w :
  call_validatePassword name pw ∈ calls (attemptLogin name pw w) ↔
  ∃ a, db w !! name = Some a ∧
       isEmailVerified (acc_verification a) = true ∧
       isPhoneVerified (acc_verification a) = true ∧
       lock_active (acc_verification a) (clock w (reads w)) = false.
Proof.
  login_paths name pw w; rewrite Hrun; simpl.
  - split; [intros Hin; not_in_list Hin |]. intros (a' & [= <-] & _ & _ & Hl'). congruence.
  - split; [by exists a | intros _; in_list].
  - split; [by exists a | intros _; in_list].
  - split; [by exists a | intros _; in_list].
  - split; [intros Hin; not_in_list Hin |]. intros (a' & [= <-] & _ & Hp' & _). congruence.
  - split; [intros Hin; not_in_list Hin |]. intros (a' & [= <-] & He' & _). congruence.
  - split; [intros Hin; not_in_list Hin |]. intros (a' & [=] & _).
Qed.

(** X5. A response of the handler carries status 200 exactly when it is the
    success response: no rejection goes out as a 200. *)
Theorem status_200_iff_success name pw w r :
  r ∈ res (attemptLogin name pw w) →
  status r = 200 ↔ is_success r = true.
Proof.
  login_paths name pw w; rewrite Hrun; simpl; intros Hr.
  6: destruct (isPhoneVerified (acc_verification a)).
  all: repeat (apply elem_of_cons in Hr as [-> | Hr]; [by cbn |]).
  all: by apply elem_of_nil in Hr.
Qed.

(** X6. Unless the account has neither verification flag set, a request
    issues exactly one call on [res]: an unknown username, a single missing
    flag, a lock, a wrong or a correct credential are each answered once. *)
Theorem one_response_unless_both_unverified name pw w :
  (∀ a, db w !! name = Some a →
        isEmailVerified (acc_verification a) = true ∨
        isPhoneVerified (acc_verification a) = true) →
  ∃ r, res (attemptLogin name pw w) = [r].
Proof.
  intros Hflag.
  login_paths name pw w; rewrite Hrun; simpl; try (by eexists).
  destruct (Hflag a eq_refl) as [He' | Hp']; [congruence |].
  rewrite Hp'. by eexists.
Qed.

(** *** Minutes left *)

Lemma Math_ceil_div_unique (a b m : Z) :
  0 < b → b * (m - 1) < a ≤ b * m → Math_ceil_div a b = m.
Proof.
  intros Hb Hm. pose proof (Math_ceil_div_spec a b Hb) as Hc. nia.
Qed.

(** X7. [calculateTimeLeft] prints [k] exactly when the time to the expiry is
    more than [k - 1] whole minutes and at most [k]: a whole number of
    minutes is not rounded further up, an expiry less than a minute in the
    past prints as zero, and one further back as a negative number. *)
Theorem calculateTimeLeft_prints_ceiling (expiration now k : Z) :
  calculateTimeLeft expiration now = toString k ↔
  60000 * (k - 1) < expiration - now ≤ 60000 * k.
Proof.
  unfold calculateTimeLeft. change (60 * 1000) with 60000. split.
  - intros Heq. apply toString_inj in Heq. subst k.
    apply Math_ceil_div_spec. lia.
  - intros Hk. f_equal. apply Math_ceil_div_unique; [lia | done].
Qed.

(** X8. A request stopped by the lockout gate reads the clock a second time for
    the minutes it reports. The number is at least 1 exactly when the expiry
    is still ahead at that second reading, and it is 0 exactly when the
    second reading falls on the expiry or less than a minute after it. *)
Theorem locked_response_minutes name pw w a t :
  db w !! name = Some a →
  isEmailVerified (acc_verification a) = true →
  isPhoneVerified (acc_verification a) = true →
  blockExpiration (acc_verification a) = Some t →
  clock w (reads w) < t →
  let now := clock w (S (reads w)) in
  ∃ minutes,
    res (attemptLogin name pw w) =
      [mkResponse 400 (json_msg (accountLockedv1 (toString minutes)))] ∧
    (1 ≤ minutes ↔ now < t) ∧
    (minutes = 0 ↔ t ≤ now < t + 60000) ∧
    (minutes < 0 ↔ t + 60000 ≤ now).
Proof.
  intros Hd He Hp Hb Hgate now.
  exists (Math_ceil_div (t - now) 60000).
  rewrite (attemptLogin_blocked name pw w a t) by done.
  split; [done |].
  pose proof (Math_ceil_div_spec (t - now) 60000 ltac:(lia)) as Hc.
  repeat split; lia.
Qed.

(** *** The count in the incorrect-credential message *)

(** X9. Whenever the handler answers with the incorrect-credential message, the
    number in it is the counter as now stored, one more than it was, and
    below the threshold; the stored [blockExpiration] is as before. *)
Theorem incorrectPassword_reports_stored_count name pw w r k :
  r ∈ res (attemptLogin name pw w) →
  body r = json_msg (incorrectPassword k) →
  counter (db (attemptLogin name pw w)) name = k ∧
  k = counter (db w) name + 1 ∧
  k < MAX_LOGIN_ATTEMPTS ∧
  expiry (db (attemptLogin name pw w)) name = expiry (db w) name.
Proof.
  login_paths name pw w; rewrite Hrun; simpl; intros Hr Hbody.
  6: destruct (isPhoneVerified (acc_verification a)).
  all: repeat (apply elem_of_cons in Hr as [-> | Hr];
               [try discriminate Hbody |]).
  all: try by apply elem_of_nil in Hr.
  simpl in Hbody. injection Hbody as <-.
  rewrite counter_insert, (counter_present _ _ a Hd). unfold expiry.
  rewrite lookup_insert_eq, Hd. simpl.
  split; [apply js_or_Some | done].
Qed.

(** *** Failures add up across requests *)

(** X10. On an account with both flags set and no [blockExpiration], a run of
    wrong credentials that stays below the threshold raises the counter by
    the length of the run, changes nothing else, and the last answer
    carries the final count. *)
Theorem failures_accumulate name pws w a :
  db w !! name = Some a →
  isEmailVerified (acc_verification a) = true →
  isPhoneVerified (acc_verification a) = true →
  blockExpiration (acc_verification a) = None →
  (∀ pw n, pw ∈ pws → password_ok (load name (set_loginAttempts n a)) pw = false) →
  pws ≠ [] →
  let total := counter (db w) name + Z.of_nat (length pws) in
  total < MAX_LOGIN_ATTEMPTS →
  db (attempts name pws w) = <[name := set_loginAttempts (Some total) a]> (db w) ∧
  counter (db (attempts name pws w)) name = total ∧
  res (attempts name pws w) = [mkResponse 400 (json_msg (incorrectPassword total))].
Proof.
  revert w a. induction pws as [| pw pws IH]; intros w a Hd He Hp Hb Hpw Hne total Htotal;
    [done |].
  assert (password_ok (load name a) pw = false) as Hpw0.
  { rewrite <- (set_loginAttempts_same a). apply Hpw. apply list_elem_of_here. }
  pose proof (lock_active_none _ (clock w (reads w)) Hb) as Hl.
  pose proof (counter_present _ _ a Hd) as Hc.
  pose proof (attemptLogin_wrong_below name pw w a Hd He Hp Hl Hpw0) as Hrun.
  cbv zeta in Hrun. rewrite <- Hc in Hrun.
  subst total. simpl length in *. rewrite Nat2Z.inj_succ in *.
  specialize (Hrun ltac:(lia)).
  unfold attempts in *. simpl foldl.
  set (w1 := attemptLogin name pw w) in *.
  set (a1 := set_loginAttempts (Some (counter (db w) name + 1)) a) in *.
  assert (db w1 !! name = Some a1) as Hd1.
  { rewrite Hrun. simpl. apply lookup_insert_eq. }
  assert (counter (db w1) name = counter (db w) name + 1) as Hc1.
  { rewrite (counter_present _ _ a1 Hd1). apply js_or_Some. }
  destruct pws as [| pw' pws'].
  - cbn [foldl length Z.of_nat].
    replace (counter (db w) name + Z.succ 0) with (counter (db w) name + 1)
      by lia.
    split; [by rewrite Hrun |]. split; [exact Hc1 |]. by rewrite Hrun.
  - destruct (IH w1 a1 Hd1 He Hp Hb) as (Hdb & Hcount & Hres).
    { intros p n Hin. subst a1. rewrite set_loginAttempts_twice.
      apply Hpw. by apply list_elem_of_further. }
    { done. }
    { rewrite Hc1. lia. }
    rewrite Hc1 in Hdb, Hcount, Hres.
    replace (counter (db w) name + 1 + Z.of_nat (length (pw' :: pws'))) with
      (counter (db w) name + Z.succ (Z.of_nat (length (pw' :: pws'))))
      in Hdb, Hcount, Hres by lia.
    split; [| done].
    rewrite Hdb. subst a1. rewrite set_loginAttempts_twice.
    rewrite Hrun. simpl. apply insert_insert_eq.
Qed.

End Properties.

(** * The properties at sample inputs *)

#[local] Existing Instance demo_collaborators.

Lemma C1_incorrect_credential_witness :
  res (attemptLogin "alice" "wrong" world_at_four) =
    [mkResponse 400 (json_msg accountLocked)] ∧
  counter (db (attemptLogin "alice" "wrong" world_at_four)) "alice" = 5 ∧
  expiry (db (attemptLogin "alice" "wrong" world_at_four)) "alice" =
    Some 901001.
Proof.
  destruct (C1_incorrect_credential "alice" "wrong" world_at_four
              (demo_account true true (Some 4) None) 4)
    as (Hcount & Hlock & _); try reflexivity.
  destruct Hlock as (Hres & Hexp & _); [by vm_compute |].
  split; [exact Hres |]. split; [| exact Hexp].
  unfold counter. by rewrite Hcount.
Defined.

Lemma C10_missing_counter_witness :
  res (attemptLogin "alice" "wrong" world_no_counter) =
    [mkResponse 400 (json_msg (incorrectPassword 1))] ∧
  counter (db (attemptLogin "alice" "wrong" world_no_counter)) "alice" = 1.
Proof.
  destruct (C10_missing_counter "alice" "wrong" world_no_counter
              (demo_account true true None None))
    as (Hres & Hcount & _); try reflexivity.
  split; [exact Hres |]. unfold counter. by rewrite Hcount.
Defined.

Lemma C2_locked_minutes_witness :
  res (attemptLogin "alice" "s3cret" world_locked) =
    [mkResponse 400 (json_msg (accountLockedv1 "2"))] ∧
  db (attemptLogin "alice" "s3cret" world_locked) = db world_locked.
Proof.
  destruct (C2_locked_minutes "alice" "s3cret" world_locked
              (demo_account true true (Some 5) (Some 100000)) 100000)
    as (Hres & _ & _ & _ & Hdb & _); try reflexivity.
  split; [exact Hres | exact Hdb].
Defined.

Lemma C3_success_recovery_flag_witness :
  counter (db (attemptLogin "alice" "Xy7pQ2mk" world_recovery)) "alice" = 0 ∧
  ∃ r, res (attemptLogin "alice" "Xy7pQ2mk" world_recovery) = [r] ∧
       is_success r = true ∧ isRecoveryLogin r = true.
Proof.
  destruct (C3_success_recovery_flag "alice" "Xy7pQ2mk" world_recovery
              recovery_account)
    as (Hcount & _ & msg & extra & Hres & _ & _ & Hflag); try reflexivity.
  split; [unfold counter; by rewrite Hcount |].
  eexists. split; [exact Hres |].
  destruct (Hflag _ Hres) as [Hok Hrec].
  split; [exact Hok |]. apply Hrec. reflexivity.
Defined.

Lemma C4_email_not_verified_witness :
  delivered (attemptLogin "alice" "s3cret" world_unverified) =
    Some (mkResponse 400 (json_msg userNotVerified)) ∧
  db (attemptLogin "alice" "s3cret" world_unverified) = db world_unverified.
Proof.
  destruct (C4_email_not_verified "alice" "s3cret" world_unverified
              (demo_account false false (Some 2) (Some 100000)))
    as (Hres & Hdb & _); try reflexivity.
  split; [exact Hres | exact Hdb].
Defined.

Lemma C6_lock_window_witness :
  res (attemptLogin "alice" "s3cret" world_locked) =
    [mkResponse 400 (json_msg (accountLockedv1 "2"))] ∧
  eval (verifyUser "alice" "s3cret") (request world_expired) =
    Some (load "alice" (demo_account true true (Some 5) (Some 100000))) ∧
  expiry (db (exec (verifyUser "alice" "s3cret") (request world_expired)))
    "alice" = Some 100000.
Proof.
  destruct (C6_lock_window "alice" "s3cret" world_locked
              (demo_account true true (Some 5) (Some 100000)) 1000 99000)
    as [Hin _]; try reflexivity.
  destruct Hin as (Hres & _); [by vm_compute |].
  destruct (C6_lock_window "alice" "s3cret" world_expired
              (demo_account true true (Some 5) (Some 100000)) 1000 99000)
    as [_ Hout]; try reflexivity.
  destruct Hout as (Huser & _ & _ & Hexp & _); [by vm_compute |].
  split; [exact Hres |]. split; [exact Huser | exact Hexp].
Defined.

Lemma C8_not_found_idempotent_witness :
  res (attemptLogin "bob" "s3cret" world_at_four) =
    [mkResponse 400 (json_msg (userNotExists "bob"))] ∧
  db (attempts "bob" ["a"; "b"; "c"] world_at_four) = db world_at_four.
Proof.
  destruct (C8_not_found_idempotent "bob" world_at_four)
    as (Hone & Hmany & _); [reflexivity |].
  destruct (Hone "s3cret") as (Hres & _).
  split; [exact Hres | apply Hmany].
Defined.


(** C2. An account locked until 1000 is asked for at clock reading 999: the
    gate judges it locked, the clock reads 1000 when the minutes are
    computed, and the rejection carries ["0"] minutes, where a lock in force
    is to show at least 1. *)
Theorem C2_zero_minutes_when_lock_runs_out :
  lock_active (mkVerification true true (Some 5) (Some 1000))
    (clock world_lock_running_out (reads world_lock_running_out)) = true ∧
  db world_lock_running_out !! "alice" =
    Some (demo_account true true (Some 5) (Some 1000)) ∧
  res (attemptLogin "alice" "s3cret" world_lock_running_out) =
    [mkResponse 400 (json_msg (accountLockedv1 "0"))].
Proof. repeat split; reflexivity. Qed.

(** C5. At an account with neither flag set the handler writes two
    rejections on [res], the email one and then the phone one, where one
    request is to produce one outcome. *)
Theorem C5_two_rejections_written :
  res (attemptLogin "alice" "s3cret" world_unverified) =
    [mkResponse 400 (json_msg userNotVerified);
     mkResponse 400 (json_msg numberNotVerified)].
Proof. reflexivity. Qed.

(** The counts 0, 1 and 2 of the incorrect-credential path. *)
Example wrong_credential_from_zero :
  res (attemptLogin "alice" "wrong"
         (demo_world (demo_account true true (Some 0) None) 1000 1)) =
    [mkResponse 400 (json_msg (incorrectPassword 1))].
Proof. reflexivity. Qed.

Example wrong_credential_from_two :
  res (attemptLogin "alice" "wrong"
         (demo_world (demo_account true true (Some 2) None) 1000 1)) =
    [mkResponse 400 (json_msg (incorrectPassword 3))].
Proof. reflexivity. Qed.

(** An ordinary login: six characters, no recovery marker. *)
Example ordinary_login :
  res (attemptLogin "alice" "s3cret" world_three_failures) =
    [mkResponse 200 (json_login userLoggedIn "token:alice" 7 "user" None)].
Proof. reflexivity. Qed.

(** The two clock readings of the lockout gate: when the lock runs out
    between them, the rejection carries zero minutes. *)
Example lock_running_out_between_readings :
  res (attemptLogin "alice" "s3cret"
         (demo_world (demo_account true true (Some 5) (Some 1000)) 999 1)) =
    [mkResponse 400 (json_msg (accountLockedv1 "0"))].
Proof. reflexivity. Qed.

(** ** The further properties at sample inputs *)

Lemma phone_not_verified_gate_witness :
  res (attemptLogin "alice" "s3cret" world_phone_unverified) =
    [mkResponse 400 (json_msg numberNotVerified)] ∧
  db (attemptLogin "alice" "s3cret" world_phone_unverified) =
    db world_phone_unverified.
Proof.
  destruct (phone_not_verified_gate "alice" "s3cret" world_phone_unverified
              (demo_account true false (Some 2) (Some 100000)))
    as (Hres & Hdb & _); try reflexivity.
  split; [exact Hres | exact Hdb].
Defined.

Lemma status_200_iff_success_witness :
  status (mkResponse 400 (json_msg (userNotExists "bob"))) ≠ 200.
Proof.
  intros Hstatus.
  apply (status_200_iff_success "bob" "s3cret" world_at_four
           (mkResponse 400 (json_msg (userNotExists "bob")))) in Hstatus.
  - discriminate Hstatus.
  - vm_compute. apply list_elem_of_here.
Defined.

Lemma one_response_unless_both_unverified_witness :
  ∃ r, res (attemptLogin "alice" "s3cret" world_phone_unverified) = [r].
Proof.
  apply (one_response_unless_both_unverified "alice" "s3cret"
           world_phone_unverified).
  intros a Hd. left.
  vm_compute in Hd. injection Hd as <-. reflexivity.
Defined.

Lemma locked_response_minutes_witness :
  ∃ minutes,
    res (attemptLogin "alice" "s3cret" world_lock_running_out) =
      [mkResponse 400 (json_msg (accountLockedv1 (toString minutes)))] ∧
    minutes = 0.
Proof.
  destruct (locked_response_minutes "alice" "s3cret" world_lock_running_out
              (demo_account true true (Some 5) (Some 1000)) 1000)
    as (minutes & Hres & _ & Hzero & _); try reflexivity.
  exists minutes. split; [exact Hres |]. apply Hzero. by vm_compute.
Defined.

Lemma incorrectPassword_reports_stored_count_witness :
  counter (db (attemptLogin "alice" "wrong" world_three_failures)) "alice" = 4 ∧
  expiry (db (attemptLogin "alice" "wrong" world_three_failures)) "alice" =
    expiry (db world_three_failures) "alice".
Proof.
  destruct (incorrectPassword_reports_stored_count "alice" "wrong"
              world_three_failures
              (mkResponse 400 (json_msg (incorrectPassword 4))) 4)
    as (Hcount & _ & _ & Hexp).
  - vm_compute. apply list_elem_of_here.
  - reflexivity.
  - split; [exact Hcount | exact Hexp].
Defined.

Lemma failures_accumulate_witness :
  counter (db (attempts "alice" ["a"; "b"; "c"] world_one_failure)) "alice" = 4 ∧
  res (attempts "alice" ["a"; "b"; "c"] world_one_failure) =
    [mkResponse 400 (json_msg (incorrectPassword 4))].
Proof.
  destruct (failures_accumulate "alice" ["a"; "b"; "c"] world_one_failure
              (demo_account true true (Some 1) None))
    as (_ & Hcount & Hres); try reflexivity.
  - intros pw n Hin.
    repeat (apply elem_of_cons in Hin as [-> | Hin]; [reflexivity |]).
    by apply elem_of_nil in Hin.
  - discriminate.
  - split; [exact Hcount | exact Hres].
Defined.

(** * Properties of the profile handlers *)

Module ProfileFacts.
Import Profile.

Section Facts.
Context `{Platform}.

Ltac unfold_handlers :=
  unfold updateUserProfile, getUserProfile, authorized, try_catch, save in *.

(** Splits a request by what the handlers test: the row, the caller's
    rights, the profile. *)
Ltac handler_cases req rows :=
  let i := fresh "i" in
  let row := fresh "row" in
  let p := fresh "p" in
  let Hf := fresh "Hfind" in
  let Ha := fresh "Hauth" in
  let Hp := fresh "Hprofile" in
  unfold_handlers;
  destruct (findOne (params_userId req) rows) as [[i row] |] eqn:Hf;
  [ destruct (is_admin (caller_rol <$> user req) ||
              same_id (Number (params_userId req)) (userId <$> user req))
      eqn:Ha;
    [ destruct (userProfile row) as [p |] eqn:Hp | ]
  | ].

Lemma findOne_Some userId rows i row :
  findOne userId rows = Some (i, row) ↔
  match_id userId = Some i ∧ rows !! i = Some row.
Proof.
  unfold findOne. destruct (match_id userId) as [j |]; simpl.
  - destruct (rows !! j) as [r |] eqn:Hj; simpl.
    + split; [by intros [= <- <-] | by intros [[= <-] Hr]; rewrite Hj in Hr; injection Hr as <-].
    + split; [done | by intros [[= <-] Hr]; rewrite Hj in Hr].
  - split; [done | by intros [? _]].
Qed.

Lemma findOne_save userId rows i row p :
  findOne userId rows = Some (i, row) →
  findOne userId (save i row p rows) =
    Some (i, mkAuthRow (username row) (email row) (rol row) (Some p)).
Proof.
  intros [Hm Hr]%findOne_Some. apply findOne_Some. split; [done |].
  unfold save. apply lookup_insert_eq.
Qed.

Lemma or_old_twice field old : or_old field (or_old field old) = or_old field old.
Proof.
  destruct field as [| | s]; simpl; try done.
  by destruct (String.eqb s "").
Qed.

Lemma defined_or_old_twice field old :
  defined_or_old field (defined_or_old field old) = defined_or_old field old.
Proof. by destruct field. Qed.

Lemma assign_fields_twice b p :
  assign_fields b (assign_fields b p) = assign_fields b p.
Proof.
  unfold assign_fields. simpl.
  by rewrite !or_old_twice, !defined_or_old_twice.
Qed.

Lemma or_old_blank field old : blank field = true → or_old field old = old.
Proof. destruct field as [| | s]; simpl; try done. by intros ->. Qed.

Lemma or_old_filled field old :
  filled old = true → filled (or_old field old) = true.
Proof.
  intros Hold. destruct field as [| | s]; simpl; try done.
  destruct (String.eqb s "") eqn:Hs; [done |]. simpl. by rewrite Hs.
Qed.

(** *** The four paths of each handler *)

Lemma update_unknown req rows :
  findOne (params_userId req) rows = None →
  updateUserProfile req rows = (mkResponse 404 (json_msg userNotFound), rows).
Proof. intros Hnone. unfold_handlers. by rewrite Hnone. Qed.

Lemma update_refused req rows i row :
  findOne (params_userId req) rows = Some (i, row) →
  authorized req = false →
  updateUserProfile req rows = (mkResponse 403 (json_msg accessDenied), rows).
Proof. intros Hfind Hno. unfold_handlers. by rewrite Hfind, Hno. Qed.

Lemma update_no_profile req rows i row :
  findOne (params_userId req) rows = Some (i, row) →
  authorized req = true →
  userProfile row = None →
  updateUserProfile req rows = (mkResponse 500 (json_msg serverError), rows).
Proof. intros Hfind Hyes Hnone. unfold_handlers. by rewrite Hfind, Hyes, Hnone. Qed.

Lemma update_ok req rows i row p :
  findOne (params_userId req) rows = Some (i, row) →
  authorized req = true →
  userProfile row = Some p →
  updateUserProfile req rows =
    (mkResponse 200
       (json_profile i (username row) (email row) (rol row)
          (assign_fields (body req) p)),
     save i row (assign_fields (body req) p) rows).
Proof. intros Hfind Hyes Hp. unfold_handlers. by rewrite Hfind, Hyes, Hp. Qed.

Lemma get_unknown req rows :
  findOne (params_userId req) rows = None →
  getUserProfile req rows = mkResponse 404 (json_msg userNotFound).
Proof. intros Hnone. unfold_handlers. by rewrite Hnone. Qed.

Lemma get_refused req rows i row :
  findOne (params_userId req) rows = Some (i, row) →
  authorized req = false →
  getUserProfile req rows = mkResponse 403 (json_msg accessDenied).
Proof. intros Hfind Hno. unfold_handlers. by rewrite Hfind, Hno. Qed.

Lemma get_no_profile req rows i row :
  findOne (params_userId req) rows = Some (i, row) →
  authorized req = true →
  userProfile row = None →
  getUserProfile req rows = mkResponse 500 (json_msg serverError).
Proof. intros Hfind Hyes Hnone. unfold_handlers. by rewrite Hfind, Hyes, Hnone. Qed.

Lemma get_ok req rows i row p :
  findOne (params_userId req) rows = Some (i, row) →
  authorized req = true →
  userProfile row = Some p →
  getUserProfile req rows =
    mkResponse 200 (json_profile i (username row) (email row) (rol row) p).
Proof. intros Hfind Hyes Hp. unfold_handlers. by rewrite Hfind, Hyes, Hp. Qed.

Lemma assign_fields_blank b p :
  blank (body_firstName b) = true →
  blank (body_lastName b) = true →
  blank (body_biography b) = true →
  blank (body_direccion b) = true →
  body_profileType b = absent →
  body_messageType b = absent →
  assign_fields b p = p.
Proof.
  intros H1 H2 H3 H4 H5 H6. unfold assign_fields.
  rewrite !or_old_blank, H5, H6 by done. by destruct p.
Qed.

Lemma save_same rows i row p :
  rows !! i = Some row → userProfile row = Some p → save i row p rows = rows.
Proof.
  intros Hrow Hp. unfold save. apply insert_id.
  rewrite Hrow. f_equal. destruct row; simpl in *. by rewrite Hp.
Qed.

(** ** Who is served *)

(** X11. A caller who is neither an administrator nor the user the request names
    changes nothing and reads nothing: both handlers answer 404 when the id
    matches no row and 403 when it matches one. *)
Theorem unauthorized_request_refused req rows :
  authorized req = false →
  let answer := match findOne (params_userId req) rows with
                | Some _ => mkResponse 403 (json_msg accessDenied)
                | None => mkResponse 404 (json_msg userNotFound)
                end in
  updateUserProfile req rows = (answer, rows) ∧
  getUserProfile req rows = answer.
Proof.
  intros Hno answer. subst answer.
  destruct (findOne (params_userId req) rows) as [[i row] |] eqn:Hfind.
  - by rewrite (update_refused req rows i row), (get_refused req rows i row).
  - by rewrite update_unknown, get_unknown.
Qed.

(** X12. A request without an authenticated caller is never served, whatever
    the id it names. *)
Theorem anonymous_request_refused req rows :
  user req = None →
  snd (updateUserProfile req rows) = rows ∧
  code (fst (updateUserProfile req rows)) ≠ 200 ∧
  code (getUserProfile req rows) ≠ 200.
Proof.
  intros Hanon.
  assert (authorized req = false) as Hno.
  { unfold authorized. rewrite Hanon. simpl.
    by destruct (Number (params_userId req)). }
  handler_cases req rows; try done; congruence.
Qed.

(** X13. An id that matches no row is answered 404 to every caller, an
    administrator included, before any right is looked at. *)
Theorem unknown_id_is_404 req rows :
  findOne (params_userId req) rows = None →
  updateUserProfile req rows = (mkResponse 404 (json_msg userNotFound), rows) ∧
  getUserProfile req rows = mkResponse 404 (json_msg userNotFound).
Proof. intros Hnone. by rewrite update_unknown, get_unknown. Qed.

(** X14. A user stored without a profile can be neither read nor updated, even
    by a caller with the right to: both handlers answer 500 and nothing
    changes. *)
Theorem missing_profile_is_500 req rows i row :
  findOne (params_userId req) rows = Some (i, row) →
  userProfile row = None →
  authorized req = true →
  updateUserProfile req rows = (mkResponse 500 (json_msg serverError), rows) ∧
  getUserProfile req rows = mkResponse 500 (json_msg serverError).
Proof.
  intros Hfind Hnone Hyes.
  by rewrite (update_no_profile req rows i row), (get_no_profile req rows i row).
Qed.

(** X15. The two handlers answer a request with the same status: whoever may
    read a profile may write it, and the other way round. *)
Theorem update_and_get_same_code req rows :
  code (fst (updateUserProfile req rows)) = code (getUserProfile req rows).
Proof. handler_cases req rows; done. Qed.

(** ** What an update changes *)

(** X16. An update changes at most the row the id matches, and only in a request
    answered 200 to a caller with the right to it. *)
Theorem update_touches_one_row req rows j :
  snd (updateUserProfile req rows) !! j = rows !! j ∨
  (match_id (params_userId req) = Some j ∧
   authorized req = true ∧
   code (fst (updateUserProfile req rows)) = 200).
Proof.
  handler_cases req rows; try by left.
  simpl. destruct (decide (i = j)) as [<- | Hne].
  - right. apply findOne_Some in Hfind as [Hm _]. done.
  - left. by rewrite lookup_insert_ne.
Qed.

(** X17. No update creates or removes a row, or changes a username, an email, a
    role, a profile picture or a status. *)
Theorem update_keeps_identity req rows j :
  match rows !! j, snd (updateUserProfile req rows) !! j with
  | Some row, Some row' =>
      username row' = username row ∧
      email row' = email row ∧
      rol row' = rol row ∧
      (profilePicture <$> userProfile row') = (profilePicture <$> userProfile row) ∧
      (status <$> userProfile row') = (status <$> userProfile row)
  | None, None => True
  | _, _ => False
  end.
Proof.
  handler_cases req rows; simpl.
  2-4: by destruct (rows !! j).
  apply findOne_Some in Hfind as [_ Hrow].
  destruct (decide (i = j)) as [<- | Hne].
  - rewrite lookup_insert_eq, Hrow. simpl. by rewrite Hprofile.
  - rewrite lookup_insert_ne by done. by destruct (rows !! j).
Qed.

(** X18. The four text fields cannot be emptied: one that holds a non-empty
    string holds a non-empty string after any update. *)
Theorem text_fields_stay_filled req rows j row p :
  rows !! j = Some row →
  userProfile row = Some p →
  ∃ row' p',
    snd (updateUserProfile req rows) !! j = Some row' ∧
    userProfile row' = Some p' ∧
    (filled (firstName p) = true → filled (firstName p') = true) ∧
    (filled (lastName p) = true → filled (lastName p') = true) ∧
    (filled (biography p) = true → filled (biography p') = true) ∧
    (filled (direccion p) = true → filled (direccion p') = true).
Proof.
  intros Hrow Hp.
  handler_cases req rows; simpl.
  2-4: by exists row, p.
  apply findOne_Some in Hfind as [_ Hrow0].
  destruct (decide (i = j)) as [<- | Hne].
  - rewrite Hrow in Hrow0. injection Hrow0 as <-.
    rewrite Hp in Hprofile. injection Hprofile as <-.
    eexists _, _. rewrite lookup_insert_eq. split; [done |]. split; [done |].
    simpl. repeat split; apply or_old_filled.
  - exists row, p. by rewrite lookup_insert_ne.
Qed.

(** ** Updates compose *)

(** X19. Sending the same update twice does what sending it once does: the same
    answer, the same rows. *)
Theorem update_idempotent req rows :
  updateUserProfile req (snd (updateUserProfile req rows)) =
  updateUserProfile req rows.
Proof.
  destruct (findOne (params_userId req) rows) as [[i row] |] eqn:Hfind.
  - destruct (authorized req) eqn:Hauth.
    + destruct (userProfile row) as [p |] eqn:Hprofile.
      * rewrite (update_ok req rows i row p) by done. simpl.
        set (p' := assign_fields (body req) p).
        rewrite (update_ok req (save i row p' rows) i
                   (mkAuthRow (username row) (email row) (rol row) (Some p')) p');
          [| by apply findOne_save | done | done].
        simpl. subst p'. rewrite assign_fields_twice. unfold save.
        by rewrite insert_insert_eq.
      * rewrite (update_no_profile req rows i row) by done. simpl.
        by apply (update_no_profile req rows i row).
    + rewrite (update_refused req rows i row) by done. simpl.
      by apply (update_refused req rows i row).
  - rewrite (update_unknown req rows) by done. simpl. by apply update_unknown.
Qed.

(** X20. A body whose text fields are missing, [null] or empty and whose two type
    fields are missing changes nothing: the rows stay as they are and the
    answer is the one [getUserProfile] gives. *)
Theorem blank_update_is_a_read req rows :
  blank (body_firstName (body req)) = true →
  blank (body_lastName (body req)) = true →
  blank (body_biography (body req)) = true →
  blank (body_direccion (body req)) = true →
  body_profileType (body req) = absent →
  body_messageType (body req) = absent →
  updateUserProfile req rows = (getUserProfile req rows, rows).
Proof.
  intros H1 H2 H3 H4 H5 H6.
  destruct (findOne (params_userId req) rows) as [[i row] |] eqn:Hfind.
  - destruct (authorized req) eqn:Hauth.
    + destruct (userProfile row) as [p |] eqn:Hprofile.
      * rewrite (update_ok req rows i row p), (get_ok req rows i row p) by done.
        rewrite assign_fields_blank by done.
        apply findOne_Some in Hfind as [_ Hrow].
        by rewrite save_same.
      * by rewrite (update_no_profile req rows i row),
          (get_no_profile req rows i row).
    + by rewrite (update_refused req rows i row), (get_refused req rows i row).
  - by rewrite update_unknown, get_unknown.
Qed.

(** X21. Reading after an update returns what the update answered, whatever the
    answer was. *)
Theorem get_after_update req rows :
  getUserProfile req (snd (updateUserProfile req rows)) =
  fst (updateUserProfile req rows).
Proof.
  destruct (findOne (params_userId req) rows) as [[i row] |] eqn:Hfind.
  - destruct (authorized req) eqn:Hauth.
    + destruct (userProfile row) as [p |] eqn:Hprofile.
      * rewrite (update_ok req rows i row p) by done. simpl.
        set (p' := assign_fields (body req) p).
        by rewrite (get_ok req (save i row p' rows) i
                      (mkAuthRow (username row) (email row) (rol row) (Some p')) p');
          [| apply findOne_save | |].
      * rewrite (update_no_profile req rows i row) by done. simpl.
        by apply (get_no_profile req rows i row).
    + rewrite (update_refused req rows i row) by done. simpl.
      by apply (get_refused req rows i row).
  - rewrite (update_unknown req rows) by done. simpl. by apply get_unknown.
Qed.

End Facts.

(** ** The properties at sample requests *)

#[local] Existing Instance demo_platform.

Lemma unauthorized_request_refused_witness :
  updateUserProfile luis_renames_ana demo_rows =
    (mkResponse 403 (json_msg accessDenied), demo_rows) ∧
  getUserProfile luis_renames_ana demo_rows =
    mkResponse 403 (json_msg accessDenied).
Proof.
  exact (unauthorized_request_refused luis_renames_ana demo_rows eq_refl).
Defined.

Lemma anonymous_request_refused_witness :
  snd (updateUserProfile anonymous_renames_ana demo_rows) = demo_rows ∧
  code (fst (updateUserProfile anonymous_renames_ana demo_rows)) ≠ 200 ∧
  code (getUserProfile anonymous_renames_ana demo_rows) ≠ 200.
Proof.
  apply (anonymous_request_refused anonymous_renames_ana demo_rows).
  reflexivity.
Defined.

Lemma unknown_id_is_404_witness :
  updateUserProfile root_reads_nobody demo_rows =
    (mkResponse 404 (json_msg userNotFound), demo_rows) ∧
  getUserProfile root_reads_nobody demo_rows =
    mkResponse 404 (json_msg userNotFound).
Proof.
  apply (unknown_id_is_404 root_reads_nobody demo_rows). reflexivity.
Defined.

Lemma missing_profile_is_500_witness :
  updateUserProfile root_reads_luis demo_rows =
    (mkResponse 500 (json_msg serverError), demo_rows) ∧
  getUserProfile root_reads_luis demo_rows =
    mkResponse 500 (json_msg serverError).
Proof.
  apply (missing_profile_is_500 root_reads_luis demo_rows 13
           (mkAuthRow "luis" "luis@example.org" "user" None));
    reflexivity.
Defined.

Lemma text_fields_stay_filled_witness :
  ∃ row' p',
    snd (updateUserProfile ana_renames_ana demo_rows) !! 12 = Some row' ∧
    userProfile row' = Some p' ∧
    filled (firstName p') = true ∧
    filled (direccion p') = true.
Proof.
  destruct (text_fields_stay_filled ana_renames_ana demo_rows 12
              (mkAuthRow "ana" "ana@example.org" "user" (Some ana_profile))
              ana_profile)
    as (row' & p' & Hrow & Hp & Hfirst & _ & _ & Hdir); try reflexivity.
  exists row', p'. split; [exact Hrow |]. split; [exact Hp |].
  split; [apply Hfirst | apply Hdir]; reflexivity.
Defined.

Lemma blank_update_is_a_read_witness :
  updateUserProfile ana_reads_ana demo_rows =
    (getUserProfile ana_reads_ana demo_rows, demo_rows).
Proof.
  apply (blank_update_is_a_read ana_reads_ana demo_rows); reflexivity.
Defined.

(** Ana's update: the name changes, the empty biography and the [null]
    address are passed over, the [null] profile type is stored. *)
Example ana_renames_herself :
  fst (updateUserProfile ana_renames_ana demo_rows) =
    mkResponse 200
      (json_profile 12 "ana" "ana@example.org" "user"
         (mkProfile (Some "Anna") (Some "Paz") None (Some "Calle 1") None None
            (Some "ana.png") (Some "active"))).
Proof. reflexivity. Qed.

End ProfileFacts.
